(** * Azure DevOps proxy API ([api/index.py]): a shallow embedding

    The program is a FastAPI application with two endpoints, [GET /projects]
    and [POST /bugs], each of which talks to the Azure DevOps REST API
    through [httpx].  The embedding keeps the shape of the source:

    - JSON documents and Python values read from them are one inductive
      type [json] (a Python [dict] is an association list in insertion
      order, [None] is [JNull]);
    - Python exceptions are values of type [exn]; code that can raise runs
      in the error monad [E], and code that also performs outbound calls
      in the monad [M], which threads the log of the outbound requests
      made so far;
    - the upstream service is a function from the log and the request to
      either a transport error or a response;
    - FastAPI's request validation and exception handlers are the
      functions [validate_request], [render_exn], [get_projects] and
      [post_bugs].

    Strings are [string]s over [ascii]; the case mapping and the
    whitespace class are Python's on the ASCII range. *)

From Stdlib Require Import ZArith NArith QArith List String Ascii Bool Lia.
From Stdlib Require Import DecimalString DecimalZ.
Import ListNotations.

Local Close Scope Q_scope.
Local Open Scope string_scope.
Local Open Scope Z_scope.

(** ** JSON values and Python's view of them *)

#[local] Set Warnings "-register-all".

(** A Python [float] that is finite, as the rational it denotes.  NaN and
    the infinities are not JSON and stay outside the model. *)
Definition pyfloat : Type := Q.

Inductive json : Type :=
| JNull
| JBool (b : bool)
| JInt (n : Z)
| JFloat (f : pyfloat)
| JStr (s : string)
| JList (l : list json)
| JDict (d : list (string * json)).

(** [bool(v)] for a value decoded from JSON. *)
Definition truthy (v : json) : bool :=
  match v with
  | JNull => false
  | JBool b => b
  | JInt n => negb (n =? 0)
  | JFloat f => negb (Qeq_bool f 0)
  | JStr s => negb (s =? "")%string
  | JList l => match l with [] => false | _ :: _ => true end
  | JDict d => match d with [] => false | _ :: _ => true end
  end.

(** [a or b], for a second operand that is a plain value *)
Definition py_or (a b : json) : json := if truthy a then a else b.

Fixpoint assoc (k : string) (d : list (string * json)) : option json :=
  match d with
  | [] => None
  | (k', v) :: d' => if (k =? k')%string then Some v else assoc k d'
  end.

(** ** Exceptions and the outbound-call monad *)

Inductive exn : Type :=
| HTTPException (status_code : Z) (detail : json)
| RuntimeError (msg : string)
| HTTPError (msg : string)
| OtherException (name : string).

Inductive http_method : Type := GET | POST.

Record OutRequest : Type := mkOutRequest {
  out_method : http_method;
  out_url : string;
  out_headers : list (string * string);
  out_json : option json
}.

(** An [httpx.Response]: [resp_json] is the outcome of [resp.json()],
    [None] when that call raises. *)
Record Response : Type := mkResponse {
  status_code : Z;
  text : string;
  resp_json : option json
}.

(** The upstream: given the calls already made and the next request, a
    transport failure (an [httpx.HTTPError] with its message) or a
    response. *)
Definition Upstream : Type := list OutRequest -> OutRequest -> string + Response.

Definition E (A : Type) : Type := (exn + A)%type.

Definition ebind {A B} (e : E A) (k : A -> E B) : E B :=
  match e with
  | inl x => inl x
  | inr a => k a
  end.

Notation "x <~ e ;; k" := (ebind e (fun x => k))
  (at level 61, e at next level, right associativity).

(** [try: e except Exception: h], for code that makes no call *)
Definition try_value {A} (e : E A) (h : A) : A :=
  match e with
  | inl _ => h
  | inr a => a
  end.

Definition M (A : Type) : Type := list OutRequest -> E A * list OutRequest.

Definition ret {A} (a : A) : M A := fun log => (inr a, log).
Definition raise {A} (e : exn) : M A := fun log => (inl e, log).
Definition lift {A} (e : E A) : M A := fun log => (e, log).
Definition bind {A B} (m : M A) (k : A -> M B) : M B :=
  fun log =>
    match m log with
    | (inl e, log') => (inl e, log')
    | (inr a, log') => k a log'
    end.

Notation "x <- m ;; k" := (bind m (fun x => k))
  (at level 61, m at next level, right associativity).
Notation "' p <- m ;; k" := (bind m (fun x => match x with p => k end))
  (at level 61, p pattern, m at next level, right associativity).

(** [try: m except Exception: h] *)
Definition try_except {A} (m : M A) (h : M A) : M A :=
  fun log =>
    match m log with
    | (inl _, log') => h log'
    | r => r
    end.

(** [async with httpx.AsyncClient(...) as client: resp = await client.request(...)] *)
Definition client_send (up : Upstream) (rq : OutRequest) : M Response :=
  fun log =>
    match up log rq with
    | inl msg => (inl (HTTPError msg), (log ++ [rq])%list)
    | inr r => (inr r, (log ++ [rq])%list)
    end.

(** [resp.json()] *)
Definition json_of (r : Response) : E json :=
  match resp_json r with
  | Some j => inr j
  | None => inl (OtherException "JSONDecodeError")
  end.

(** [x.get(k, default)]: an [AttributeError] unless [x] is a dict. *)
Definition py_get (x : json) (k : string) (default : json) : E json :=
  match x with
  | JDict d => inr (match assoc k d with Some v => v | None => default end)
  | _ => inl (OtherException "AttributeError")
  end.

(** ** Strings: [str.strip], [str.lower], [str(int)], base64 *)

Definition is_space (c : ascii) : bool :=
  let n := N_of_ascii c in
  ((9 <=? n) && (n <=? 13) || (28 <=? n) && (n <=? 32))%N.

Definition lower_char (c : ascii) : ascii :=
  let n := N_of_ascii c in
  if ((65 <=? n) && (n <=? 90))%N then ascii_of_N (n + 32) else c.

Fixpoint lstrip (s : list ascii) : list ascii :=
  match s with
  | c :: s' => if is_space c then lstrip s' else s
  | [] => []
  end.

Definition strip_l (s : list ascii) : list ascii :=
  rev (lstrip (rev (lstrip s))).

Definition strip (s : string) : string :=
  string_of_list_ascii (strip_l (list_ascii_of_string s)).

Definition lower (s : string) : string :=
  string_of_list_ascii (map lower_char (list_ascii_of_string s)).

(** [str(n)] for a Python [int] *)
Definition str_int (n : Z) : string := NilZero.string_of_int (Z.to_int n).

Definition b64_alphabet : list ascii :=
  list_ascii_of_string
    "ABCDEFGHIJKLMNOPQRSTUVWXYZabcdefghijklmnopqrstuvwxyz0123456789+/".

Definition b64_char (n : N) : ascii := nth (N.to_nat n) b64_alphabet "="%char.

Fixpoint b64_list (l : list ascii) : list ascii :=
  match l with
  | a :: b :: c :: rest =>
      let n := (N_of_ascii a * 65536 + N_of_ascii b * 256 + N_of_ascii c)%N in
      b64_char (n / 262144) :: b64_char (n / 4096 mod 64)
        :: b64_char (n / 64 mod 64) :: b64_char (n mod 64) :: b64_list rest
  | [a; b] =>
      let n := (N_of_ascii a * 65536 + N_of_ascii b * 256)%N in
      [b64_char (n / 262144); b64_char (n / 4096 mod 64);
       b64_char (n / 64 mod 64); "="%char]
  | [a] =>
      let n := (N_of_ascii a * 65536)%N in
      [b64_char (n / 262144); b64_char (n / 4096 mod 64); "="%char; "="%char]
  | [] => []
  end.

Definition b64encode (s : string) : string :=
  string_of_list_ascii (b64_list (list_ascii_of_string s)).

(** ** Configuration *)

Definition Env : Type := string -> option string.

Definition config_error_message : string :=
  "Error: El servidor no tiene la configuración necesaria (AZURE_DEVOPS_ORG, AZURE_DEVOPS_PAT).".

(** [os.getenv] gives [None] for an unset variable; [not org] also holds
    for a variable set to the empty string. *)
Definition get_azure_config (env : Env) : E (string * string) :=
  let org := env "AZURE_DEVOPS_ORG" in
  let pat := env "AZURE_DEVOPS_PAT" in
  match org, pat with
  | Some o, Some p =>
      if (o =? "")%string || (p =? "")%string
      then inl (RuntimeError config_error_message)
      else inr (o, p)
  | _, _ => inl (RuntimeError config_error_message)
  end.

Definition build_auth_header (pat : string) : string :=
  "Basic " ++ b64encode (":" ++ pat).

(** ** [datetime.strptime(v, "%Y-%m-%d")]

    CPython's [_strptime] turns the format into a regular expression with
    one named group per directive, matches it at the start of the string
    with a backtracking matcher, refuses unconverted trailing text, reads
    the groups with [int] and builds the date, which checks the calendar. *)

Inductive regex : Type :=
| Chr (p : ascii -> bool)
| Cat (r1 r2 : regex)
| Alt (r1 r2 : regex)
| Group (name : string) (r : regex).

Definition groups : Type := list (string * list ascii).

(** All the ways [r] matches a prefix of [s], in the order a backtracking
    matcher tries them: (text consumed, groups captured, text left). *)
Fixpoint rmatch (r : regex) (s : list ascii)
  : list (list ascii * groups * list ascii) :=
  match r with
  | Chr p =>
      match s with
      | c :: s' => if p c then [([c], [], s')] else []
      | [] => []
      end
  | Cat r1 r2 =>
      flat_map (fun '(c1, g1, s1) =>
        map (fun '(c2, g2, s2) => ((c1 ++ c2)%list, (g1 ++ g2)%list, s2))
            (rmatch r2 s1)) (rmatch r1 s)
  | Alt r1 r2 => (rmatch r1 s ++ rmatch r2 s)%list
  | Group name r' =>
      map (fun '(c, g, s') => (c, (name, c) :: g, s')) (rmatch r' s)
  end.

Definition in_range (lo hi : ascii) (c : ascii) : bool :=
  ((N_of_ascii lo <=? N_of_ascii c) && (N_of_ascii c <=? N_of_ascii hi))%N.

Definition is_digit : ascii -> bool := in_range "0" "9".
Definition lit (c : ascii) : regex := Chr (Ascii.eqb c).
Definition rng (lo hi : ascii) : regex := Chr (in_range lo hi).
Definition digit : regex := Chr is_digit.

(** [%Y]: [(?P<Y>\d\d\d\d)] *)
Definition re_Y : regex := Group "Y" (Cat digit (Cat digit (Cat digit digit))).

(** [%m]: [(?P<m>1[0-2]|0[1-9]|[1-9])] *)
Definition re_m : regex :=
  Group "m" (Alt (Cat (lit "1") (rng "0" "2"))
            (Alt (Cat (lit "0") (rng "1" "9"))
                 (rng "1" "9"))).

(** [%d]: [(?P<d>3[0-1]|[1-2]\d|0[1-9]|[1-9]| [1-9])] *)
Definition re_d : regex :=
  Group "d" (Alt (Cat (lit "3") (rng "0" "1"))
            (Alt (Cat (rng "1" "2") digit)
            (Alt (Cat (lit "0") (rng "1" "9"))
            (Alt (rng "1" "9")
                 (Cat (lit " ") (rng "1" "9")))))).

Definition Ymd_regex : regex :=
  Cat re_Y (Cat (lit "-") (Cat re_m (Cat (lit "-") re_d))).

Fixpoint group_get (name : string) (g : groups) : option (list ascii) :=
  match g with
  | [] => None
  | (n, c) :: g' => if (name =? n)%string then Some c else group_get name g'
  end.

Fixpoint digits_value (acc : Z) (s : list ascii) : option Z :=
  match s with
  | [] => Some acc
  | c :: s' =>
      if is_digit c
      then digits_value (10 * acc + (Z.of_N (N_of_ascii c) - 48)) s'
      else None
  end.

(** [int(s)] on the text of a group: surrounding whitespace is dropped,
    the rest is read as decimal digits. *)
Definition py_int (s : list ascii) : option Z :=
  match strip_l s with
  | [] => None
  | t => digits_value 0 t
  end.

Definition is_leap (y : Z) : bool :=
  (y mod 4 =? 0) && (negb (y mod 100 =? 0) || (y mod 400 =? 0)).

Definition days_in_month (y m : Z) : Z :=
  if m =? 2 then (if is_leap y then 29 else 28)
  else if (m =? 4) || (m =? 6) || (m =? 9) || (m =? 11) then 30
  else 31.

(** [datetime.date(y, m, d)] raises [ValueError] outside these bounds. *)
Definition check_date_fields (y m d : Z) : bool :=
  (1 <=? y) && (y <=? 9999) && (1 <=? m) && (m <=? 12)
  && (1 <=? d) && (d <=? days_in_month y m).

(** [Some (y, m, d)] when [strptime] returns, [None] when it raises
    [ValueError]. *)
Definition strptime_Ymd (v : string) : option (Z * Z * Z) :=
  match rmatch Ymd_regex (list_ascii_of_string v) with
  | [] => None
  | (_, g, rest) :: _ =>
      match rest with
      | _ :: _ => None
      | [] =>
          match group_get "Y" g, group_get "m" g, group_get "d" g with
          | Some ys, Some ms, Some ds =>
              match py_int ys, py_int ms, py_int ds with
              | Some y, Some m, Some d =>
                  if check_date_fields y m d then Some (y, m, d) else None
              | _, _, _ => None
              end
          | _, _, _ => None
          end
      end
  end.

(** ** The input model [BugCreateRequest] *)

Record BugCreateRequest : Type := mkBugCreateRequest {
  project : string;
  userStoryId : Z;
  title : string;
  assignedTo : string;
  reproSteps : string;
  effort : pyfloat;
  cliente : string;
  priority : Z;
  severity : string;
  activity : string;
  tipoDeError : string;
  fechaInicioPlaneada : string;
  responsableBug : string;
  aplicacion : string;
  tareaAsociada : Z;
  versionAplicacion : string;
  funcionalidad : string
}.

Inductive field_error : Type :=
| EmailError
| NotGe (limit : Z)
| NotLe (limit : Z)
| ValueError (msg : string).

Record validation_error : Type := mkValidationError {
  loc : string;
  err : field_error
}.

(** The validator of the field [fechaInicioPlaneada]. *)
Definition validate_fecha (v : string) : field_error + string :=
  match strptime_Ymd v with
  | Some _ => inr v
  | None => inl (ValueError "fechaInicioPlaneada debe tener el formato YYYY-MM-DD")
  end.

(** [Field(..., ge=1, le=4)] *)
Definition validate_priority (p : Z) : field_error + Z :=
  if p <? 1 then inl (NotGe 1)
  else if 4 <? p then inl (NotLe 4)
  else inr p.

(** ** What the application sends back *)

Inductive HttpResponse : Type :=
| JSONResponse (status_code : Z) (content : json)
| ValidationErrorResponse (errors : list validation_error)
| ServerErrorResponse.

Definition response_status (r : HttpResponse) : Z :=
  match r with
  | JSONResponse sc _ => sc
  | ValidationErrorResponse _ => 422
  | ServerErrorResponse => 500
  end.

(** The two handlers the application registers; [msg] is [str(exc)]. *)
Definition runtime_error_handler (msg : string) : HttpResponse :=
  JSONResponse 500 (JDict [("detail", JStr msg)]).

Definition httpx_error_handler (msg : string) : HttpResponse :=
  JSONResponse 502
    (JDict [("detail", JStr ("Error en la comunicación con Azure DevOps: " ++ msg))]).

(** What the caller gets for an exception that leaves an endpoint:
    FastAPI's own handler for [HTTPException], the two handlers above, and
    the server's plain 500 for anything else. *)
Definition render_exn (e : exn) : HttpResponse :=
  match e with
  | HTTPException sc detail => JSONResponse sc (JDict [("detail", detail)])
  | RuntimeError msg => runtime_error_handler msg
  | HTTPError msg => httpx_error_handler msg
  | OtherException _ => ServerErrorResponse
  end.

Definition run_endpoint (m : M HttpResponse) : HttpResponse * list OutRequest :=
  match m [] with
  | (inl e, log) => (render_exn e, log)
  | (inr r, log) => (r, log)
  end.

(** ** Endpoint: list projects *)

Definition raw_text (r : Response) : json := JDict [("raw_text", JStr (text r))].

Definition projects_request (org pat : string) : OutRequest :=
  mkOutRequest GET
    ("https://dev.azure.com/" ++ org ++ "/_apis/projects?api-version=7.1-preview")
    [("Authorization", build_auth_header pat); ("Accept", "application/json")]
    None.

Definition list_projects (env : Env) (up : Upstream) : M json :=
  '(org, pat) <- lift (get_azure_config env) ;;
  resp <- client_send up (projects_request org pat) ;;
  if status_code resp >=? 400 then
    let content := try_value (json_of resp) (raw_text resp) in
    raise (HTTPException 502
             (JDict [("message", JStr "Azure DevOps API error fetching projects");
                     ("azure_status", JInt (status_code resp));
                     ("azure_response", content)]))
  else lift (json_of resp).

(** ** Helper: the tester lookup *)

Definition name_matches (name display_name : string) : bool :=
  (lower (strip name) =? lower (strip display_name))%string.

(** A method of [str] called on [v]: an [AttributeError] unless [v] is a
    string. *)
Definition as_str (v : json) : E string :=
  match v with
  | JStr s => inr s
  | _ => inl (OtherException "AttributeError")
  end.

(** [user.get("user", {}).get(key)] *)
Definition user_attr (user : json) (key : string) : E json :=
  u <~ py_get user "user" (JDict []) ;;
  py_get u key JNull.

(** [user.get("user", {}).get("displayName") or user.get("name", "")] *)
Definition user_name (user : json) : E json :=
  dn <~ user_attr user "displayName" ;;
  if truthy dn then inr dn else py_get user "name" (JStr "").

(** The [for user in users] loop; [inr JNull] is the [return None] after it. *)
Fixpoint users_loop (display_name : string) (users : list json) : E json :=
  match users with
  | [] => inr JNull
  | user :: rest =>
      nm <~ user_name user ;;
      name <~ as_str nm ;;
      if name_matches name display_name then
        principal <~ user_attr user "principalName" ;;
        if truthy principal then inr principal
        else
          mail <~ user_attr user "mailAddress" ;;
          if truthy mail then inr mail
          else users_loop display_name rest
      else users_loop display_name rest
  end.

Definition lookup_url (org display_name : string) : string :=
  "https://vsaex.dev.azure.com/" ++ org ++ "/_apis/userentitlements"
  ++ "?api-version=6.0-preview.3&$filter=name eq '" ++ display_name ++ "'".

Definition lookup_request (org pat display_name : string) : OutRequest :=
  mkOutRequest GET (lookup_url org display_name)
    [("Authorization", build_auth_header pat); ("Accept", "application/json")]
    None.

(** [data.get("members") or data.get("value") or []] *)
Definition users_of (data : json) : E json :=
  members <~ py_get data "members" JNull ;;
  if truthy members then inr members
  else
    value <~ py_get data "value" JNull ;;
    inr (py_or value (JList [])).

(** What the function does with the response once it has it.  Iterating
    over a non-empty dict or string yields strings, which have no [get];
    the other non-list values are not iterable. *)
Definition principal_of_response (display_name : string) (resp : Response) : E json :=
  if status_code resp >=? 400 then inr JNull
  else
    data <~ json_of resp ;;
    users <~ users_of data ;;
    match users with
    | JList l => users_loop display_name l
    | JDict _ | JStr _ => inl (OtherException "AttributeError")
    | _ => inl (OtherException "TypeError")
    end.

Definition find_user_principal_name (up : Upstream) (org pat display_name : string)
  : M json :=
  resp <- client_send up (lookup_request org pat display_name) ;;
  lift (principal_of_response display_name resp).

(** ** Endpoint: create bug *)

Definition TESTER_NAME : string := "Antony Daniel Gutierrez Salgado".

Definition add_op (path : string) (value : json) : json :=
  JDict [("op", JStr "add"); ("path", JStr path); ("value", value)].

Definition fecha_con_hora (request_body : BugCreateRequest) : string :=
  fechaInicioPlaneada request_body ++ "T00:00:00-05:00".

Definition parent_url (org : string) (request_body : BugCreateRequest) : string :=
  "https://dev.azure.com/" ++ org ++ "/" ++ project request_body
  ++ "/_apis/wit/workItems/" ++ str_int (userStoryId request_body).

Definition patch_ops (org : string) (tester_principal : json)
    (request_body : BugCreateRequest) : list json :=
  [ add_op "/fields/System.Title" (JStr (title request_body));
    add_op "/fields/System.AssignedTo" (JStr (assignedTo request_body));
    add_op "/fields/Microsoft.VSTS.TCM.ReproSteps" (JStr (reproSteps request_body));
    add_op "/fields/Microsoft.VSTS.Scheduling.Effort" (JFloat (effort request_body));
    add_op "/fields/Microsoft.VSTS.Common.Priority" (JInt (priority request_body));
    add_op "/fields/Microsoft.VSTS.Common.Severity" (JStr (severity request_body));
    add_op "/fields/Microsoft.VSTS.Common.Activity" (JStr (activity request_body));
    add_op "/fields/Microsoft.VSTS.Common.ValueArea" (JStr "Business");
    add_op "/fields/Custom.Tester" tester_principal;
    add_op "/fields/Custom.Cliente" (JStr (cliente request_body));
    add_op "/fields/Custom.Tipodeerror" (JStr (tipoDeError request_body));
    add_op "/fields/Custom.FechaInicioPlaneada" (JStr (fecha_con_hora request_body));
    add_op "/fields/Custom.ResponsableBug" (JStr (responsableBug request_body));
    add_op "/fields/Custom.33ece249-f3ca-4b23-a86a-0c605534caa3"
      (JStr (aplicacion request_body));
    add_op "/fields/Custom.Tareaasociada" (JStr (str_int (tareaAsociada request_body)));
    add_op "/fields/Custom.f82dc49a-eb67-44c3-ac65-de18fee91f0b"
      (JStr (versionAplicacion request_body));
    add_op "/fields/Custom.Funcionalidadquepresentaelerror"
      (JStr (funcionalidad request_body));
    add_op "/relations/-"
      (JDict [("rel", JStr "System.LinkTypes.Hierarchy-Reverse");
              ("url", JStr (parent_url org request_body));
              ("attributes", JDict [("comment", JStr "Parent User Story")])]) ].

Definition create_url (org : string) (request_body : BugCreateRequest) : string :=
  "https://dev.azure.com/" ++ org ++ "/" ++ project request_body
  ++ "/_apis/wit/workitems/$Bug?api-version=7.1-preview".

Definition create_request (org pat : string) (tester_principal : json)
    (request_body : BugCreateRequest) : OutRequest :=
  mkOutRequest POST (create_url org request_body)
    [("Authorization", build_auth_header pat);
     ("Content-Type", "application/json-patch+json");
     ("Accept", "application/json")]
    (Some (JList (patch_ops org tester_principal request_body))).

Definition tester_not_found : string :=
  "No se pudo encontrar el usuario Tester '" ++ TESTER_NAME
  ++ "' en la organización de Azure DevOps.".

Definition create_bug (env : Env) (up : Upstream) (request_body : BugCreateRequest)
  : M HttpResponse :=
  '(org, pat) <- lift (get_azure_config env) ;;
  tester_principal <- find_user_principal_name up org pat TESTER_NAME ;;
  if negb (truthy tester_principal) then
    raise (HTTPException 404 (JStr tester_not_found))
  else
    resp <- client_send up (create_request org pat tester_principal request_body) ;;
    if status_code resp >=? 400 then
      let azure_body := try_value (json_of resp) (raw_text resp) in
      raise (HTTPException 502
               (JDict [("message", JStr "Azure DevOps API error creating bug");
                       ("azure_status", JInt (status_code resp));
                       ("azure_response", azure_body)]))
    else
      try_except (j <- lift (json_of resp) ;; ret (JSONResponse 201 j))
                 (ret (JSONResponse 201 (raw_text resp))).

(** ** The application: validation, routing, exception handlers *)

Section App.

(** [EmailStr] hands the string to the [email-validator] package, which
    either rejects it or returns the address in normal form. *)
Variable validate_email : string -> option string.

Definition email_errors (field value : string) : list validation_error :=
  match validate_email value with
  | Some _ => []
  | None => [mkValidationError field EmailError]
  end.

Definition sum_errors {A} (field : string) (r : field_error + A)
  : list validation_error :=
  match r with
  | inl e => [mkValidationError field e]
  | inr _ => []
  end.

(** The model is built field by field and every failure is collected.  The
    body is taken after JSON decoding, each field already of its declared
    type. *)
Definition request_errors (body : BugCreateRequest) : list validation_error :=
  (email_errors "assignedTo" (assignedTo body)
   ++ sum_errors "priority" (validate_priority (priority body))
   ++ sum_errors "fechaInicioPlaneada" (validate_fecha (fechaInicioPlaneada body))
   ++ email_errors "responsableBug" (responsableBug body))%list.

(** The request object exists only when there is no error. *)
Definition validate_request (body : BugCreateRequest)
  : list validation_error + BugCreateRequest :=
  let errors := request_errors body in
  match errors, validate_email (assignedTo body), validate_email (responsableBug body) with
  | [], Some a, Some r =>
      inr (mkBugCreateRequest
             (project body) (userStoryId body) (title body) a (reproSteps body)
             (effort body) (cliente body) (priority body) (severity body)
             (activity body) (tipoDeError body) (fechaInicioPlaneada body) r
             (aplicacion body) (tareaAsociada body) (versionAplicacion body)
             (funcionalidad body))
  | _, _, _ => inl errors
  end.

Definition get_projects (env : Env) (up : Upstream) : HttpResponse * list OutRequest :=
  run_endpoint (j <- list_projects env up ;; ret (JSONResponse 200 j)).

Definition post_bugs (env : Env) (up : Upstream) (body : BugCreateRequest)
  : HttpResponse * list OutRequest :=
  match validate_request body with
  | inl errors => (ValidationErrorResponse errors, [])
  | inr request_body => run_endpoint (create_bug env up request_body)
  end.

Inductive InRequest : Type :=
| GET_projects
| POST_bugs (body : BugCreateRequest).

Definition app (env : Env) (up : Upstream) (rq : InRequest)
  : HttpResponse * list OutRequest :=
  match rq with
  | GET_projects => get_projects env up
  | POST_bugs body => post_bugs env up body
  end.

End App.

(** ** Vocabulary of the statements *)

(** Both variables are set and not empty. *)
Definition configured (env : Env) (org pat : string) : Prop :=
  env "AZURE_DEVOPS_ORG" = Some org /\ org <> "" /\
  env "AZURE_DEVOPS_PAT" = Some pat /\ pat <> "".

Definition config_absent (env : Env) : Prop :=
  env "AZURE_DEVOPS_ORG" = None \/ env "AZURE_DEVOPS_PAT" = None.

(** The body of a failed upstream call as the gateway error carries it. *)
Definition upstream_body (r : Response) : json :=
  match resp_json r with
  | Some j => j
  | None => JDict [("raw_text", JStr (text r))]
  end.

Definition gateway_error (message : string) (r : Response) : HttpResponse :=
  JSONResponse 502
    (JDict [("detail",
             JDict [("message", JStr message);
                    ("azure_status", JInt (status_code r));
                    ("azure_response", upstream_body r)])]).

Definition not_found_response : HttpResponse :=
  JSONResponse 404 (JDict [("detail", JStr tester_not_found)]).

Definition config_error_response : HttpResponse :=
  JSONResponse 500 (JDict [("detail", JStr config_error_message)]).


(** Reading a patch document: the path an operation targets, its kind,
    and the values of the operations that target a given path. *)
Definition op_path (op : json) : option string :=
  match op with
  | JDict d => match assoc "path" d with Some (JStr p) => Some p | _ => None end
  | _ => None
  end.

Definition op_kind (op : json) : option string :=
  match op with
  | JDict d => match assoc "op" d with Some (JStr k) => Some k | _ => None end
  | _ => None
  end.

Definition targets (path : string) (op : json) : bool :=
  match op_path op with
  | Some p => (p =? path)%string
  | None => false
  end.

Fixpoint values_at (path : string) (ops : list json) : list json :=
  match ops with
  | [] => []
  | op :: ops' =>
      if targets path op
      then match op with
           | JDict d => match assoc "value" d with Some v => [v] | None => [] end
           | _ => []
           end ++ values_at path ops'
      else values_at path ops'
  end%list.

(** The fields of the request that the document carries, each with the
    upstream path it is written to, in the order of the document. *)
Definition input_field_ops (request_body : BugCreateRequest) : list json :=
  [ add_op "/fields/System.Title" (JStr (title request_body));
    add_op "/fields/System.AssignedTo" (JStr (assignedTo request_body));
    add_op "/fields/Microsoft.VSTS.TCM.ReproSteps" (JStr (reproSteps request_body));
    add_op "/fields/Microsoft.VSTS.Scheduling.Effort" (JFloat (effort request_body));
    add_op "/fields/Microsoft.VSTS.Common.Priority" (JInt (priority request_body));
    add_op "/fields/Microsoft.VSTS.Common.Severity" (JStr (severity request_body));
    add_op "/fields/Microsoft.VSTS.Common.Activity" (JStr (activity request_body));
    add_op "/fields/Custom.Cliente" (JStr (cliente request_body));
    add_op "/fields/Custom.Tipodeerror" (JStr (tipoDeError request_body));
    add_op "/fields/Custom.FechaInicioPlaneada"
      (JStr (fechaInicioPlaneada request_body ++ "T00:00:00-05:00"));
    add_op "/fields/Custom.ResponsableBug" (JStr (responsableBug request_body));
    add_op "/fields/Custom.33ece249-f3ca-4b23-a86a-0c605534caa3"
      (JStr (aplicacion request_body));
    add_op "/fields/Custom.Tareaasociada" (JStr (str_int (tareaAsociada request_body)));
    add_op "/fields/Custom.f82dc49a-eb67-44c3-ac65-de18fee91f0b"
      (JStr (versionAplicacion request_body));
    add_op "/fields/Custom.Funcionalidadquepresentaelerror"
      (JStr (funcionalidad request_body)) ].

(** The operation that links the new item to its parent. *)
Definition relation_op (org : string) (request_body : BugCreateRequest) : json :=
  add_op "/relations/-"
    (JDict [("rel", JStr "System.LinkTypes.Hierarchy-Reverse");
            ("url", JStr ("https://dev.azure.com/" ++ org ++ "/" ++ project request_body
                          ++ "/_apis/wit/workItems/"
                          ++ str_int (userStoryId request_body)));
            ("attributes", JDict [("comment", JStr "Parent User Story")])]).

(** The two operations that carry no field of the request. *)
Definition value_area_op : json :=
  add_op "/fields/Microsoft.VSTS.Common.ValueArea" (JStr "Business").

Definition tester_op (tester_principal : json) : json :=
  add_op "/fields/Custom.Tester" tester_principal.

(** The document with one operation per input field and the relation link,
    and nothing else. *)
Definition input_fields_and_link (org : string) (request_body : BugCreateRequest)
  : list json :=
  (input_field_ops request_body ++ [relation_op org request_body])%list.

(** The date format read strictly: four digits, a dash, two digits, a
    dash, two digits. *)
Definition YYYY_MM_DD (s : string) : bool :=
  match list_ascii_of_string s with
  | [y1; y2; y3; y4; s1; m1; m2; s2; d1; d2] =>
      forallb is_digit [y1; y2; y3; y4; m1; m2; d1; d2]
      && Ascii.eqb s1 "-" && Ascii.eqb s2 "-"
  | _ => false
  end.




(** An attribute that is missing, null or an empty list. *)
Definition no_users (o : option json) : Prop :=
  o = None \/ o = Some JNull \/ o = Some (JList []).


(** ** Reading an authorization header back

    The inverse of [b64encode] and of [build_auth_header], as the server
    that receives the header computes them. *)

Fixpoint index_in (c : ascii) (l : list ascii) : option N :=
  match l with
  | [] => None
  | x :: l' => if Ascii.eqb c x then Some 0%N else option_map N.succ (index_in c l')
  end.

Definition b64_index (c : ascii) : option N := index_in c b64_alphabet.

Definition byte_of (n : N) : ascii := ascii_of_N (n mod 256).

Fixpoint b64_decode_list (l : list ascii) : option (list ascii) :=
  match l with
  | [] => Some []
  | c1 :: c2 :: c3 :: c4 :: rest =>
      match b64_index c1, b64_index c2, b64_index c3, b64_index c4 with
      | Some i1, Some i2, Some i3, Some i4 =>
          let n := (i1 * 262144 + i2 * 4096 + i3 * 64 + i4)%N in
          option_map
            (fun t => byte_of (n / 65536) :: byte_of (n / 256) :: byte_of n :: t)
            (b64_decode_list rest)
      | Some i1, Some i2, Some i3, None =>
          let n := (i1 * 262144 + i2 * 4096 + i3 * 64)%N in
          match rest with
          | [] => if Ascii.eqb c4 "=" then Some [byte_of (n / 65536); byte_of (n / 256)]
                  else None
          | _ :: _ => None
          end
      | Some i1, Some i2, None, None =>
          let n := (i1 * 262144 + i2 * 4096)%N in
          match rest with
          | [] => if Ascii.eqb c3 "=" && Ascii.eqb c4 "=" then Some [byte_of (n / 65536)]
                  else None
          | _ :: _ => None
          end
      | _, _, _, _ => None
      end
  | _ => None
  end.

Definition b64decode (s : string) : option string :=
  option_map string_of_list_ascii (b64_decode_list (list_ascii_of_string s)).

(** The credential of a Basic header with an empty user name. *)
Definition credential_of_header (h : string) : option string :=
  match list_ascii_of_string h with
  | "B" :: "a" :: "s" :: "i" :: "c" :: " " :: token =>
      match b64_decode_list token with
      | Some (":" :: pat) => Some (string_of_list_ascii pat)
      | _ => None
      end
  | _ => None
  end%char.

(** ** The dates [strptime] reads, described directly *)






(** ** Sample data *)

Definition simple_email (s : string) : option string :=
  if existsb (Ascii.eqb "@") (list_ascii_of_string s) then Some s else None.

Definition env_ok : Env :=
  fun k =>
    if (k =? "AZURE_DEVOPS_ORG")%string then Some "acme"
    else if (k =? "AZURE_DEVOPS_PAT")%string then Some "s3cret"
    else None.

Definition env_empty : Env := fun _ => None.

Definition sample_body : BugCreateRequest :=
  mkBugCreateRequest "Shop" 4711 "Crash on save" "dev@x.com" "1. open 2. save"
    (5 # 2)%Q "ACME" 2 "2 - High" "Testing" "Funcional" "2024-03-09"
    "lead@x.com" "Portal" 815 "1.4.2" "Checkout".

Definition with_priority (p : Z) (b : BugCreateRequest) : BugCreateRequest :=
  mkBugCreateRequest (project b) (userStoryId b) (title b) (assignedTo b)
    (reproSteps b) (effort b) (cliente b) p (severity b) (activity b)
    (tipoDeError b) (fechaInicioPlaneada b) (responsableBug b) (aplicacion b)
    (tareaAsociada b) (versionAplicacion b) (funcionalidad b).

Definition with_fecha (f : string) (b : BugCreateRequest) : BugCreateRequest :=
  mkBugCreateRequest (project b) (userStoryId b) (title b) (assignedTo b)
    (reproSteps b) (effort b) (cliente b) (priority b) (severity b) (activity b)
    (tipoDeError b) f (responsableBug b) (aplicacion b)
    (tareaAsociada b) (versionAplicacion b) (funcionalidad b).

Definition entitlement (name : string) (attrs : list (string * json)) : json :=
  JDict [("id", JStr "u-1"); ("user", JDict (("displayName", JStr name) :: attrs))].

Definition listing (users : list json) : Response :=
  mkResponse 200 "{...}" (Some (JDict [("members", JList users)])).

Definition tester_listing : Response :=
  listing [entitlement "Someone Else" [("principalName", JStr "e@x.com")];
           entitlement " antony daniel GUTIERREZ salgado "
             [("principalName", JStr "t@x.com")]].

(** Users of an organisation that has no entry for the tester. *)
Definition strangers : list json :=
  [entitlement "Someone Else" [("principalName", JStr "e@x.com")];
   JDict [("name", JStr "Build Service")]].

Definition created : Response :=
  mkResponse 200 "{id: 123}" (Some (JDict [("id", JInt 123)])).

(** An upstream that answers the first call with [r0] and later ones with [r1]. *)
Definition scripted (r0 r1 : Response) : Upstream :=
  fun log _ => match log with [] => inr r0 | _ :: _ => inr r1 end.

(** The organisation is set, the credential is set to the empty string. *)
Definition env_blank_pat : Env :=
  fun k =>
    if (k =? "AZURE_DEVOPS_ORG")%string then Some "acme"
    else if (k =? "AZURE_DEVOPS_PAT")%string then Some ""
    else None.

(** An upstream that cannot be reached: every call fails in transport. *)
Definition unreachable (msg : string) : Upstream := fun _ _ => inl msg.

(** An upstream that answers the first call with [r0] and then drops the
    connection. *)
Definition drops_second (r0 : Response) (msg : string) : Upstream :=
  fun log _ => match log with [] => inr r0 | _ :: _ => inl msg end.



Definition with_story (id : Z) (b : BugCreateRequest) : BugCreateRequest :=
  mkBugCreateRequest (project b) id (title b) (assignedTo b)
    (reproSteps b) (effort b) (cliente b) (priority b) (severity b) (activity b)
    (tipoDeError b) (fechaInicioPlaneada b) (responsableBug b) (aplicacion b)
    (tareaAsociada b) (versionAplicacion b) (funcionalidad b).

(** ** Properties *)

Section Properties.

Variable validate_email : string -> option string.

Lemma get_azure_config_ok env org pat :
  configured env org pat -> get_azure_config env = inr (org, pat).
Proof.
  intros (Ho & Hne & Hp & Hnp). unfold get_azure_config. rewrite Ho, Hp.
  destruct (String.eqb_spec org ""); [contradiction|].
  destruct (String.eqb_spec pat ""); [contradiction|]. reflexivity.
Qed.

Lemma get_azure_config_absent env :
  config_absent env -> get_azure_config env = inl (RuntimeError config_error_message).
Proof.
  intros [H|H]; unfold get_azure_config; rewrite H;
    [reflexivity | destruct (env "AZURE_DEVOPS_ORG"); reflexivity].
Qed.

Lemma try_value_json r : try_value (json_of r) (raw_text r) = upstream_body r.
Proof. unfold try_value, json_of, upstream_body, raw_text. destruct (resp_json r); reflexivity. Qed.

(** What [GET /projects] does once the configuration is there and the
    upstream has answered. *)
Lemma get_projects_answer env up org pat r :
  configured env org pat ->
  up [] (projects_request org pat) = inr r ->
  get_projects env up =
    (if status_code r >=? 400
     then gateway_error "Azure DevOps API error fetching projects" r
     else match resp_json r with
          | Some j => JSONResponse 200 j
          | None => ServerErrorResponse
          end,
     [projects_request org pat]).
Proof.
  intros Hc Hup.
  unfold get_projects, run_endpoint, list_projects, bind, lift.
  rewrite (get_azure_config_ok _ _ _ Hc).
  unfold client_send. rewrite Hup. cbn [List.app].
  destruct (status_code r >=? 400).
  - unfold raise. rewrite try_value_json. reflexivity.
  - unfold json_of. destruct (resp_json r); reflexivity.
Qed.

(** The lookup makes exactly one call, whatever comes back. *)
Lemma find_user_principal_name_run up org pat name log :
  find_user_principal_name up org pat name log =
    (match up log (lookup_request org pat name) with
     | inl msg => inl (HTTPError msg)
     | inr r => principal_of_response name r
     end, (log ++ [lookup_request org pat name])%list).
Proof.
  unfold find_user_principal_name, bind, client_send, lift.
  destruct (up log (lookup_request org pat name)); reflexivity.
Qed.

(** What [POST /bugs] does with a validated body once the configuration is
    there and the lookup call has been answered with a response. *)
Lemma post_bugs_after_lookup env up body request_body org pat r0 :
  configured env org pat ->
  validate_request validate_email body = inr request_body ->
  up [] (lookup_request org pat TESTER_NAME) = inr r0 ->
  post_bugs validate_email env up body =
    match principal_of_response TESTER_NAME r0 with
    | inl e => (render_exn e, [lookup_request org pat TESTER_NAME])
    | inr tester_principal =>
        if truthy tester_principal then
          let rq := create_request org pat tester_principal request_body in
          match up [lookup_request org pat TESTER_NAME] rq with
          | inl msg => (render_exn (HTTPError msg), [lookup_request org pat TESTER_NAME; rq])
          | inr r =>
              (if status_code r >=? 400
               then gateway_error "Azure DevOps API error creating bug" r
               else JSONResponse 201 (upstream_body r),
               [lookup_request org pat TESTER_NAME; rq])
          end
        else (not_found_response, [lookup_request org pat TESTER_NAME])
    end.
Proof.
  intros Hc Hv Hup.
  unfold post_bugs. rewrite Hv.
  unfold run_endpoint, create_bug, bind at 1, lift at 1.
  rewrite (get_azure_config_ok _ _ _ Hc). cbv beta iota.
  unfold bind at 1. rewrite find_user_principal_name_run, Hup. cbn [List.app].
  destruct (principal_of_response TESTER_NAME r0) as [e|tp]; [reflexivity|].
  destruct (truthy tp); cbn [negb]; [|reflexivity].
  unfold bind at 1, client_send. cbv zeta.
  destruct (up [lookup_request org pat TESTER_NAME] _) as [msg|r];
    cbn [List.app]; [reflexivity|].
  destruct (status_code r >=? 400).
  - unfold raise. rewrite try_value_json. reflexivity.
  - unfold try_except, bind, lift, json_of, ret, upstream_body, raw_text.
    destruct (resp_json r); reflexivity.
Qed.

Lemma validate_priority_inr p q : validate_priority p = inr q -> q = p /\ 1 <= p <= 4.
Proof.
  unfold validate_priority.
  destruct (Z.ltb_spec p 1); [discriminate|].
  destruct (Z.ltb_spec 4 p); [discriminate|].
  intros [= <-]. lia.
Qed.

(** A body becomes a request object only when every field validator
    passed; the object differs from the body in the two addresses, which
    are the validator's normal forms. *)
Lemma validate_request_inr body request_body :
  validate_request validate_email body = inr request_body ->
  validate_email (assignedTo body) = Some (assignedTo request_body) /\
  validate_email (responsableBug body) = Some (responsableBug request_body) /\
  1 <= priority body <= 4 /\
  strptime_Ymd (fechaInicioPlaneada body) <> None /\
  priority request_body = priority body /\
  fechaInicioPlaneada request_body = fechaInicioPlaneada body /\
  tareaAsociada request_body = tareaAsociada body /\
  userStoryId request_body = userStoryId body /\
  project request_body = project body.
Proof.
  unfold validate_request, request_errors, email_errors, validate_fecha.
  destruct (validate_email (assignedTo body)) as [a|]; [|intros [=]].
  destruct (validate_email (responsableBug body)) as [r|].
  2:{ destruct (_ ++ _)%list; intros [=]. }
  destruct (validate_priority (priority body)) as [e|q] eqn:Hp; [intros [=]|].
  destruct (strptime_Ymd (fechaInicioPlaneada body)) as [d|] eqn:Hf; [|intros [=]].
  cbn. intros [= <-]. cbn.
  apply validate_priority_inr in Hp. intuition (congruence || lia).
Qed.

Lemma validate_request_inl body errors :
  validate_request validate_email body = inl errors ->
  errors = request_errors validate_email body.
Proof.
  unfold validate_request.
  destruct (request_errors validate_email body);
    destruct (validate_email (assignedTo body));
    destruct (validate_email (responsableBug body)); congruence.
Qed.

(** A body with one failing field is refused, whatever the other fields
    are, and the failure is among the errors reported. *)
Lemma validate_request_refuses body e :
  In e (request_errors validate_email body) ->
  exists errors,
    validate_request validate_email body = inl errors /\ In e errors.
Proof.
  intros Hin. unfold validate_request.
  destruct (request_errors validate_email body) as [|x l] eqn:He; [destruct Hin|].
  exists (x :: l). split; [reflexivity | exact Hin].
Qed.

Lemma post_bugs_refused env up body errors :
  validate_request validate_email body = inl errors ->
  post_bugs validate_email env up body = (ValidationErrorResponse errors, []).
Proof. intros H. unfold post_bugs. rewrite H. reflexivity. Qed.

Lemma post_bugs_unconfigured env up body request_body :
  config_absent env ->
  validate_request validate_email body = inr request_body ->
  post_bugs validate_email env up body = (config_error_response, []).
Proof.
  intros Ha Hv. unfold post_bugs. rewrite Hv.
  unfold run_endpoint, create_bug, bind, lift.
  rewrite (get_azure_config_absent _ Ha). reflexivity.
Qed.

Lemma get_projects_unconfigured env up :
  config_absent env -> get_projects env up = (config_error_response, []).
Proof.
  intros Ha. unfold get_projects, run_endpoint, list_projects, bind, lift.
  rewrite (get_azure_config_absent _ Ha). reflexivity.
Qed.

(** *** Priority bound *)

(** C4: a request object that passed validation has [1 <= priority <= 4];
    a [POST /bugs] body whose priority is below 1 or above 4 is refused by
    validation, the priority failure is among the reported errors, the
    answer is the 422 validation response and no outbound call is made,
    so [create_bug] is never run on it. *)
Theorem C4_priority_bounded env up body :
  (forall request_body,
      validate_request validate_email body = inr request_body ->
      1 <= priority request_body <= 4) /\
  (priority body < 1 \/ 4 < priority body ->
   exists errors,
     validate_request validate_email body = inl errors /\
     (In (mkValidationError "priority" (NotGe 1)) errors \/
      In (mkValidationError "priority" (NotLe 4)) errors) /\
     post_bugs validate_email env up body = (ValidationErrorResponse errors, []) /\
     response_status (fst (post_bugs validate_email env up body)) = 422).
Proof.
  split.
  - intros rb Hv. apply validate_request_inr in Hv.
    destruct Hv as (_ & _ & Hp & _ & Heq & _). rewrite Heq. exact Hp.
  - intros Hout.
    assert (Hin : exists e, (e = NotGe 1 \/ e = NotLe 4) /\
                   In (mkValidationError "priority" e)
                      (request_errors validate_email body)).
    { unfold request_errors, validate_priority.
      destruct (Z.ltb_spec (priority body) 1).
      - exists (NotGe 1). split; [now left|].
        apply in_or_app. right. apply in_or_app. left. now left.
      - destruct (Z.ltb_spec 4 (priority body)); [|lia].
        exists (NotLe 4). split; [now right|].
        apply in_or_app. right. apply in_or_app. left. now left. }
    destruct Hin as (e & He & Hin).
    destruct (validate_request_refuses _ _ Hin) as (errors & Hv & Hin').
    exists errors. rewrite (post_bugs_refused env up _ _ Hv).
    repeat split; try reflexivity; try assumption.
    destruct He; subst e; [now left | now right].
Qed.

(** *** Listing projects *)

(** C6: with the configuration present and an upstream answer whose status
    is below 400 and whose body decodes to the JSON value [j],
    [GET /projects] answers 200 with [j] itself; when the upstream status
    is 400 it answers 502 with a detail that holds the upstream status 400
    and the upstream body (decoded, or as raw text).  One outbound call is
    made in both cases. *)
Theorem C6_list_projects env up org pat r :
  configured env org pat ->
  up [] (projects_request org pat) = inr r ->
  (status_code r < 400 ->
   forall j, resp_json r = Some j ->
     get_projects env up = (JSONResponse 200 j, [projects_request org pat])) /\
  (status_code r = 400 ->
   get_projects env up =
     (JSONResponse 502
        (JDict [("detail",
                 JDict [("message", JStr "Azure DevOps API error fetching projects");
                        ("azure_status", JInt 400);
                        ("azure_response", upstream_body r)])]),
      [projects_request org pat])).
Proof.
  intros Hc Hup. rewrite (get_projects_answer _ _ _ _ _ Hc Hup). split.
  - intros Hlt j Hj. destruct (Z.geb_spec (status_code r) 400); [lia|].
    rewrite Hj. reflexivity.
  - intros H400. unfold gateway_error. rewrite H400. reflexivity.
Qed.

(** *** Missing configuration *)

(** C7 (as the code has it): when either variable is unset, [GET /projects]
    and every [POST /bugs] whose body passes validation are answered with
    status 500 and the configuration error message, and no outbound call
    is made. *)
Theorem C7_missing_configuration env up :
  config_absent env ->
  get_projects env up = (config_error_response, []) /\
  (forall body request_body,
      validate_request validate_email body = inr request_body ->
      post_bugs validate_email env up body = (config_error_response, [])) /\
  config_error_response =
    JSONResponse 500 (JDict [("detail", JStr config_error_message)]).
Proof.
  intros Ha. repeat split.
  - apply get_projects_unconfigured, Ha.
  - intros body rb Hv. eapply post_bugs_unconfigured; eassumption.
Qed.

(** *** Upstream failures *)

(** C1 (as the code has it): with the configuration present, an upstream
    status of 400 or more at the projects fetch, or at the bug-creation
    write, is answered with a 502 whose detail carries the upstream status
    and body; an upstream status of 400 or more at the tester lookup is
    answered with the 404 tester-not-found error, and the creation call is
    not made. *)
Theorem C1_upstream_failures env up org pat :
  configured env org pat ->
  (forall r,
      up [] (projects_request org pat) = inr r ->
      400 <= status_code r ->
      get_projects env up =
        (gateway_error "Azure DevOps API error fetching projects" r,
         [projects_request org pat])) /\
  (forall body request_body r0 tester r,
      validate_request validate_email body = inr request_body ->
      up [] (lookup_request org pat TESTER_NAME) = inr r0 ->
      principal_of_response TESTER_NAME r0 = inr tester ->
      truthy tester = true ->
      up [lookup_request org pat TESTER_NAME]
         (create_request org pat tester request_body) = inr r ->
      400 <= status_code r ->
      post_bugs validate_email env up body =
        (gateway_error "Azure DevOps API error creating bug" r,
         [lookup_request org pat TESTER_NAME;
          create_request org pat tester request_body])) /\
  (forall body request_body r0,
      validate_request validate_email body = inr request_body ->
      up [] (lookup_request org pat TESTER_NAME) = inr r0 ->
      400 <= status_code r0 ->
      post_bugs validate_email env up body =
        (not_found_response, [lookup_request org pat TESTER_NAME])).
Proof.
  intros Hc. repeat split.
  - intros r Hup Hge. rewrite (get_projects_answer _ _ _ _ _ Hc Hup).
    destruct (Z.geb_spec (status_code r) 400); [reflexivity|lia].
  - intros body rb r0 tester r Hv Hup0 Hp Ht Hup Hge.
    rewrite (post_bugs_after_lookup _ _ _ _ _ _ _ Hc Hv Hup0), Hp, Ht.
    cbv zeta. rewrite Hup.
    destruct (Z.geb_spec (status_code r) 400); [reflexivity|lia].
  - intros body rb r0 Hv Hup0 Hge.
    rewrite (post_bugs_after_lookup _ _ _ _ _ _ _ Hc Hv Hup0).
    unfold principal_of_response.
    destruct (Z.geb_spec (status_code r0) 400); [reflexivity|lia].
Qed.

(** *** Successful creation *)

(** C8: with the configuration present, a validated body, a lookup that
    returned a tester identifier and a creation call answered with a
    status below 400, [POST /bugs] answers 201 with the decoded upstream
    body, and with [{"raw_text": <body text>}] when the body does not
    decode. *)
Theorem C8_created env up org pat body request_body r0 tester r :
  configured env org pat ->
  validate_request validate_email body = inr request_body ->
  up [] (lookup_request org pat TESTER_NAME) = inr r0 ->
  principal_of_response TESTER_NAME r0 = inr tester ->
  truthy tester = true ->
  up [lookup_request org pat TESTER_NAME]
     (create_request org pat tester request_body) = inr r ->
  status_code r < 400 ->
  (forall j, resp_json r = Some j ->
     post_bugs validate_email env up body =
       (JSONResponse 201 j,
        [lookup_request org pat TESTER_NAME;
         create_request org pat tester request_body])) /\
  (resp_json r = None ->
     post_bugs validate_email env up body =
       (JSONResponse 201 (JDict [("raw_text", JStr (text r))]),
        [lookup_request org pat TESTER_NAME;
         create_request org pat tester request_body])).
Proof.
  intros Hc Hv Hup0 Hp Ht Hup Hlt.
  rewrite (post_bugs_after_lookup _ _ _ _ _ _ _ Hc Hv Hup0), Hp, Ht.
  cbv zeta. rewrite Hup.
  destruct (Z.geb_spec (status_code r) 400); [lia|].
  unfold upstream_body. split.
  - intros j Hj. rewrite Hj. reflexivity.
  - intros Hn. rewrite Hn. reflexivity.
Qed.

(** *** The tester lookup *)








(** *** The patch document *)

Lemma parent_url_relation org request_body :
  add_op "/relations/-"
    (JDict [("rel", JStr "System.LinkTypes.Hierarchy-Reverse");
            ("url", JStr (parent_url org request_body));
            ("attributes", JDict [("comment", JStr "Parent User Story")])])
  = relation_op org request_body.
Proof. reflexivity. Qed.

(** C2 (as the code has it): the document is, in this order, the
    operations of the first seven input fields, the operation that sets
    ValueArea to the constant "Business", the operation that sets
    Custom.Tester to the looked-up tester identifier, the operations of
    the other eight input fields, and the relation link whose URL ends in
    the decimal form of userStoryId.  It has 18 operations, all of kind
    "add", on 18 different paths. *)
Theorem C2_patch_document org tester request_body :
  patch_ops org tester request_body =
    (firstn 7 (input_field_ops request_body)
     ++ [value_area_op; tester_op tester]
     ++ skipn 7 (input_field_ops request_body)
     ++ [relation_op org request_body])%list /\
  List.length (input_field_ops request_body) = 15%nat /\
  List.length (patch_ops org tester request_body) = 18%nat /\
  Forall (fun op => op_kind op = Some "add") (patch_ops org tester request_body) /\
  NoDup (map op_path (patch_ops org tester request_body)) /\
  values_at "/relations/-" (patch_ops org tester request_body) =
    [JDict [("rel", JStr "System.LinkTypes.Hierarchy-Reverse");
            ("url", JStr ("https://dev.azure.com/" ++ org ++ "/" ++ project request_body
                          ++ "/_apis/wit/workItems/"
                          ++ str_int (userStoryId request_body)));
            ("attributes", JDict [("comment", JStr "Parent User Story")])]].
Proof.
  split; [reflexivity|]. split; [reflexivity|]. split; [reflexivity|].
  split; [|split].
  - unfold patch_ops. repeat (constructor; [reflexivity|]). constructor.
  - unfold patch_ops. cbn [map op_path add_op assoc String.eqb Ascii.eqb Bool.eqb].
    repeat (constructor; [cbn [In]; intuition discriminate|]). constructor.
  - reflexivity.
Qed.

Lemma str_int_decimal n :
  option_map Z.of_int (NilZero.int_of_string (str_int n)) = Some n.
Proof.
  unfold str_int. rewrite NilZero.isi.
  - cbn [option_map]. now rewrite DecimalZ.of_to.
  - destruct n; cbn; try discriminate.
    intros [= H]. now apply DecimalPos.Unsigned.to_uint_nonnil in H.
  - destruct n; cbn; try discriminate.
    intros [= H]. now apply DecimalPos.Unsigned.to_uint_nonnil in H.
Qed.


(** *** The date validator *)


(** A date that [strptime] refuses stops the request at validation: the
    answer is the 422 response with the validator's message and no
    outbound call is made. *)
Lemma refused_date_makes_no_call env up body :
  strptime_Ymd (fechaInicioPlaneada body) = None ->
  exists errors,
    In (mkValidationError "fechaInicioPlaneada"
          (ValueError "fechaInicioPlaneada debe tener el formato YYYY-MM-DD")) errors /\
    post_bugs validate_email env up body = (ValidationErrorResponse errors, []).
Proof.
  intros Hd.
  destruct (validate_request_refuses body
              (mkValidationError "fechaInicioPlaneada"
                 (ValueError "fechaInicioPlaneada debe tener el formato YYYY-MM-DD")))
    as (errors & Hv & Hin).
  - unfold request_errors, validate_fecha. rewrite Hd.
    apply in_or_app. right. apply in_or_app. right. apply in_or_app. left. now left.
  - exists errors. split; [exact Hin|]. apply post_bugs_refused, Hv.
Qed.

End Properties.

(** ** The statements at concrete inputs *)

Example b64_three_bytes : b64encode "Man" = "TWFu".
Proof. reflexivity. Qed.

Example b64_two_bytes : b64encode "Ma" = "TWE=".
Proof. reflexivity. Qed.

Example b64_one_byte : b64encode "M" = "TQ==".
Proof. reflexivity. Qed.

Example auth_header_sample : build_auth_header "s3cret" = "Basic OnMzY3JldA==".
Proof. reflexivity. Qed.

Example str_int_negative : str_int (-42) = "-42".
Proof. reflexivity. Qed.

Example strptime_leap_day : strptime_Ymd "2024-02-29" = Some (2024, 2, 29).
Proof. reflexivity. Qed.

Example strptime_no_leap_day : strptime_Ymd "2023-02-29" = None.
Proof. reflexivity. Qed.

Example strptime_trailing_text : strptime_Ymd "2024-12-311" = None.
Proof. reflexivity. Qed.

Example strptime_year_zero : strptime_Ymd "0000-12-31" = None.
Proof. reflexivity. Qed.

Example tester_listing_found :
  principal_of_response TESTER_NAME tester_listing = inr (JStr "t@x.com").
Proof. reflexivity. Qed.

Lemma configured_env_ok : configured env_ok "acme" "s3cret".
Proof. repeat split; discriminate. Qed.

Lemma sample_body_valid : validate_request simple_email sample_body = inr sample_body.
Proof. reflexivity. Qed.

Lemma C4_witness :
  exists errors,
    validate_request simple_email (with_priority 7 sample_body) = inl errors /\
    (In (mkValidationError "priority" (NotGe 1)) errors \/
     In (mkValidationError "priority" (NotLe 4)) errors) /\
    post_bugs simple_email env_ok (scripted tester_listing created)
      (with_priority 7 sample_body) = (ValidationErrorResponse errors, []) /\
    response_status
      (fst (post_bugs simple_email env_ok (scripted tester_listing created)
              (with_priority 7 sample_body))) = 422.
Proof.
  apply (proj2 (C4_priority_bounded simple_email env_ok
                  (scripted tester_listing created) (with_priority 7 sample_body))).
  right. simpl. lia.
Defined.

Lemma C6_witness :
  get_projects env_ok (scripted created created)
    = (JSONResponse 200 (JDict [("id", JInt 123)]), [projects_request "acme" "s3cret"]) /\
  get_projects env_ok (scripted (mkResponse 400 "bad request" None) created)
    = (JSONResponse 502
         (JDict [("detail",
                  JDict [("message", JStr "Azure DevOps API error fetching projects");
                         ("azure_status", JInt 400);
                         ("azure_response", JDict [("raw_text", JStr "bad request")])])]),
       [projects_request "acme" "s3cret"]).
Proof.
  split.
  - apply (proj1 (C6_list_projects env_ok (scripted created created) "acme" "s3cret"
                    created configured_env_ok eq_refl)); [simpl; lia | reflexivity].
  - apply (proj2 (C6_list_projects env_ok
                    (scripted (mkResponse 400 "bad request" None) created)
                    "acme" "s3cret" (mkResponse 400 "bad request" None)
                    configured_env_ok eq_refl)).
    reflexivity.
Defined.

Lemma C7_witness :
  get_projects env_empty (scripted created created) = (config_error_response, []) /\
  post_bugs simple_email env_empty (scripted tester_listing created) sample_body
    = (config_error_response, []).
Proof.
  assert (Ha : config_absent env_empty) by (left; reflexivity).
  destruct (C7_missing_configuration simple_email env_empty
              (scripted created created) Ha) as (Hg & _ & _).
  destruct (C7_missing_configuration simple_email env_empty
              (scripted tester_listing created) Ha) as (_ & Hp & _).
  split; [exact Hg | exact (Hp sample_body sample_body eq_refl)].
Defined.

Lemma C7_counterexample :
  config_absent env_empty /\
  app simple_email env_empty (scripted tester_listing created)
    (POST_bugs (with_priority 7 sample_body))
    = (ValidationErrorResponse [mkValidationError "priority" (NotLe 4)], []) /\
  response_status
    (fst (app simple_email env_empty (scripted tester_listing created)
            (POST_bugs (with_priority 7 sample_body)))) <> 500.
Proof.
  split; [left; reflexivity|]. split; [reflexivity|]. vm_compute. discriminate.
Qed.

Lemma C1_witness :
  get_projects env_ok (scripted (mkResponse 503 "busy" None) created)
    = (gateway_error "Azure DevOps API error fetching projects"
         (mkResponse 503 "busy" None),
       [projects_request "acme" "s3cret"]) /\
  post_bugs simple_email env_ok
      (scripted tester_listing (mkResponse 400 "bad" None)) sample_body
    = (gateway_error "Azure DevOps API error creating bug" (mkResponse 400 "bad" None),
       [lookup_request "acme" "s3cret" TESTER_NAME;
        create_request "acme" "s3cret" (JStr "t@x.com") sample_body]) /\
  post_bugs simple_email env_ok
      (scripted (mkResponse 500 "boom" None) created) sample_body
    = (not_found_response, [lookup_request "acme" "s3cret" TESTER_NAME]).
Proof.
  split; [|split].
  - apply (proj1 (C1_upstream_failures simple_email env_ok _ "acme" "s3cret"
                    configured_env_ok)); [reflexivity | simpl; lia].
  - apply (proj1 (proj2 (C1_upstream_failures simple_email env_ok
                           (scripted tester_listing (mkResponse 400 "bad" None))
                           "acme" "s3cret" configured_env_ok))
             sample_body sample_body tester_listing);
      [reflexivity | reflexivity | reflexivity | reflexivity | reflexivity | simpl; lia].
  - apply (proj2 (proj2 (C1_upstream_failures simple_email env_ok
                           (scripted (mkResponse 500 "boom" None) created)
                           "acme" "s3cret" configured_env_ok))
             sample_body sample_body (mkResponse 500 "boom" None));
      [reflexivity | reflexivity | simpl; lia].
Defined.

Lemma C1_counterexample :
  post_bugs simple_email env_ok
      (scripted (mkResponse 500 "boom" None) created) sample_body
    = (JSONResponse 404 (JDict [("detail", JStr tester_not_found)]),
       [lookup_request "acme" "s3cret" TESTER_NAME]) /\
  response_status
    (fst (post_bugs simple_email env_ok
            (scripted (mkResponse 500 "boom" None) created) sample_body)) <> 502 /\
  get_projects env_ok (scripted (mkResponse 301 "moved" (Some (JList []))) created)
    = (JSONResponse 200 (JList []), [projects_request "acme" "s3cret"]).
Proof.
  split; [reflexivity|]. split; [vm_compute; discriminate | reflexivity].
Qed.

Lemma C8_witness :
  post_bugs simple_email env_ok (scripted tester_listing created) sample_body
    = (JSONResponse 201 (JDict [("id", JInt 123)]),
       [lookup_request "acme" "s3cret" TESTER_NAME;
        create_request "acme" "s3cret" (JStr "t@x.com") sample_body]) /\
  post_bugs simple_email env_ok
      (scripted tester_listing (mkResponse 200 "created" None)) sample_body
    = (JSONResponse 201 (JDict [("raw_text", JStr "created")]),
       [lookup_request "acme" "s3cret" TESTER_NAME;
        create_request "acme" "s3cret" (JStr "t@x.com") sample_body]).
Proof.
  split.
  - apply (proj1 (C8_created simple_email env_ok (scripted tester_listing created)
                    "acme" "s3cret" sample_body sample_body tester_listing
                    (JStr "t@x.com") created configured_env_ok
                    eq_refl eq_refl eq_refl eq_refl eq_refl eq_refl)).
    reflexivity.
  - apply (proj2 (C8_created simple_email env_ok
                    (scripted tester_listing (mkResponse 200 "created" None))
                    "acme" "s3cret" sample_body sample_body tester_listing
                    (JStr "t@x.com") (mkResponse 200 "created" None) configured_env_ok
                    eq_refl eq_refl eq_refl eq_refl eq_refl eq_refl)).
    reflexivity.
Defined.





Lemma C2_counterexample :
  In value_area_op (patch_ops "acme" (JStr "t@x.com") sample_body) /\
  ~ In value_area_op (input_fields_and_link "acme" sample_body) /\
  In (tester_op (JStr "t@x.com")) (patch_ops "acme" (JStr "t@x.com") sample_body) /\
  ~ In (tester_op (JStr "t@x.com")) (input_fields_and_link "acme" sample_body) /\
  List.length (patch_ops "acme" (JStr "t@x.com") sample_body) = 18%nat /\
  List.length (input_fields_and_link "acme" sample_body) = 16%nat.
Proof.
  split; [cbn; tauto|]. split; [cbn; intuition discriminate|].
  split; [cbn; tauto|]. split; [cbn; intuition discriminate|].
  split; reflexivity.
Qed.

(** C3 at the date "2024-1-5": the string is not of the form
    four digits, dash, two digits, dash, two digits, yet [strptime] reads
    it as 5 January 2024, validation passes, both outbound calls are made
    and the answer is 201; the value sent upstream is
    "2024-1-5T00:00:00-05:00". *)
Theorem C3_unpadded_date_accepted :
  YYYY_MM_DD "2024-1-5" = false /\
  strptime_Ymd "2024-1-5" = Some (2024, 1, 5) /\
  validate_request simple_email (with_fecha "2024-1-5" sample_body)
    = inr (with_fecha "2024-1-5" sample_body) /\
  post_bugs simple_email env_ok (scripted tester_listing created)
      (with_fecha "2024-1-5" sample_body)
    = (JSONResponse 201 (JDict [("id", JInt 123)]),
       [lookup_request "acme" "s3cret" TESTER_NAME;
        create_request "acme" "s3cret" (JStr "t@x.com")
          (with_fecha "2024-1-5" sample_body)]) /\
  values_at "/fields/Custom.FechaInicioPlaneada"
    (patch_ops "acme" (JStr "t@x.com") (with_fecha "2024-1-5" sample_body))
    = [JStr "2024-1-5T00:00:00-05:00"].
Proof. repeat split. Qed.

(** ** Further properties of the endpoints *)

Section Coverage.

Variable validate_email : string -> option string.

(** *** Configuration *)

Lemma get_azure_config_inr env org pat :
  get_azure_config env = inr (org, pat) -> configured env org pat.
Proof.
  unfold get_azure_config, configured.
  destruct (env "AZURE_DEVOPS_ORG") as [o|]; [|discriminate].
  destruct (env "AZURE_DEVOPS_PAT") as [p|]; [|discriminate].
  destruct (String.eqb_spec o ""); [discriminate|].
  destruct (String.eqb_spec p ""); [discriminate|].
  intros [= <- <-]. auto.
Qed.

Lemma get_azure_config_unconfigured env :
  (forall org pat, ~ configured env org pat) ->
  get_azure_config env = inl (RuntimeError config_error_message).
Proof.
  intros Hno. unfold get_azure_config.
  destruct (env "AZURE_DEVOPS_ORG") as [o|] eqn:Ho; [|reflexivity].
  destruct (env "AZURE_DEVOPS_PAT") as [p|] eqn:Hp; [|reflexivity].
  destruct (String.eqb_spec o ""); [reflexivity|].
  destruct (String.eqb_spec p ""); [reflexivity|].
  exfalso. apply (Hno o p). unfold configured. auto.
Qed.

(** [get_azure_config] returns the pair exactly when both variables are
    set to non-empty strings; in every other case it raises the
    configuration error. *)
Theorem get_azure_config_spec env :
  (forall org pat, get_azure_config env = inr (org, pat) <-> configured env org pat) /\
  ((forall org pat, ~ configured env org pat) ->
   get_azure_config env = inl (RuntimeError config_error_message)).
Proof.
  split.
  - intros org pat. split; [apply get_azure_config_inr | apply get_azure_config_ok].
  - apply get_azure_config_unconfigured.
Qed.

(** A variable that is set to the empty string counts as missing:
    [GET /projects] and every [POST /bugs] with a valid body answer 500
    with the configuration error, and no outbound call is made. *)
Theorem empty_variable_is_missing env up :
  env "AZURE_DEVOPS_ORG" = Some "" \/ env "AZURE_DEVOPS_PAT" = Some "" ->
  get_projects env up = (config_error_response, []) /\
  (forall body request_body,
      validate_request validate_email body = inr request_body ->
      post_bugs validate_email env up body = (config_error_response, [])).
Proof.
  intros He.
  assert (Hc : get_azure_config env = inl (RuntimeError config_error_message)).
  { apply get_azure_config_unconfigured. intros org pat (Ho & Hno & Hp & Hnp).
    destruct He as [He|He]; congruence. }
  split.
  - unfold get_projects, run_endpoint, list_projects, bind, lift. rewrite Hc. reflexivity.
  - intros body rb Hv. unfold post_bugs. rewrite Hv.
    unfold run_endpoint, create_bug, bind, lift. rewrite Hc. reflexivity.
Qed.

(** *** Transport failures *)

Lemma post_bugs_lookup_unreachable env up body request_body org pat msg :
  configured env org pat ->
  validate_request validate_email body = inr request_body ->
  up [] (lookup_request org pat TESTER_NAME) = inl msg ->
  post_bugs validate_email env up body =
    (httpx_error_handler msg, [lookup_request org pat TESTER_NAME]).
Proof.
  intros Hc Hv Hup. unfold post_bugs. rewrite Hv.
  unfold run_endpoint, create_bug, bind at 1, lift at 1.
  rewrite (get_azure_config_ok _ _ _ Hc). cbv beta iota.
  unfold bind at 1. rewrite find_user_principal_name_run, Hup. reflexivity.
Qed.

Lemma get_projects_unreachable env up org pat msg :
  configured env org pat ->
  up [] (projects_request org pat) = inl msg ->
  get_projects env up = (httpx_error_handler msg, [projects_request org pat]).
Proof.
  intros Hc Hup. unfold get_projects, run_endpoint, list_projects, bind, lift.
  rewrite (get_azure_config_ok _ _ _ Hc). unfold client_send. rewrite Hup.
  reflexivity.
Qed.

(** When an outbound call fails in transport ([httpx.HTTPError] with
    message [msg]) the caller gets 502 with the detail
    "Error en la comunicación con Azure DevOps: " followed by [msg]; a
    failure of the lookup call stops the request before the creation
    call, and no call is tried twice. *)
Theorem transport_failure_is_502 env up org pat msg :
  configured env org pat ->
  (up [] (projects_request org pat) = inl msg ->
   get_projects env up =
     (JSONResponse 502
        (JDict [("detail",
                 JStr ("Error en la comunicación con Azure DevOps: " ++ msg))]),
      [projects_request org pat])) /\
  (forall body request_body,
      validate_request validate_email body = inr request_body ->
      up [] (lookup_request org pat TESTER_NAME) = inl msg ->
      post_bugs validate_email env up body =
        (JSONResponse 502
           (JDict [("detail",
                    JStr ("Error en la comunicación con Azure DevOps: " ++ msg))]),
         [lookup_request org pat TESTER_NAME])) /\
  (forall body request_body r0 tester,
      validate_request validate_email body = inr request_body ->
      up [] (lookup_request org pat TESTER_NAME) = inr r0 ->
      principal_of_response TESTER_NAME r0 = inr tester ->
      truthy tester = true ->
      up [lookup_request org pat TESTER_NAME]
         (create_request org pat tester request_body) = inl msg ->
      post_bugs validate_email env up body =
        (JSONResponse 502
           (JDict [("detail",
                    JStr ("Error en la comunicación con Azure DevOps: " ++ msg))]),
         [lookup_request org pat TESTER_NAME;
          create_request org pat tester request_body])).
Proof.
  intros Hc. split; [|split].
  - intros Hup. apply (get_projects_unreachable _ _ _ _ _ Hc Hup).
  - intros body rb Hv Hup.
    apply (post_bugs_lookup_unreachable _ _ _ _ _ _ _ Hc Hv Hup).
  - intros body rb r0 tester Hv Hup0 Hp Ht Hup.
    rewrite (post_bugs_after_lookup _ _ _ _ _ _ _ _ Hc Hv Hup0), Hp, Ht.
    cbv zeta. rewrite Hup. reflexivity.
Qed.

(** *** Bodies that do not decode *)



(** *** The lookup loop *)







(** The user list is read from "members"; "value" is read only when
    "members" is missing, null or empty, and a response with neither
    yields [None]. *)
Theorem members_before_value display_name sc txt d :
  sc < 400 ->
  (forall u l,
      assoc "members" d = Some (JList (u :: l)) ->
      principal_of_response display_name (mkResponse sc txt (Some (JDict d)))
        = users_loop display_name (u :: l)) /\
  (forall l,
      no_users (assoc "members" d) ->
      assoc "value" d = Some (JList l) ->
      principal_of_response display_name (mkResponse sc txt (Some (JDict d)))
        = users_loop display_name l) /\
  (no_users (assoc "members" d) ->
   no_users (assoc "value" d) ->
   principal_of_response display_name (mkResponse sc txt (Some (JDict d)))
     = inr JNull).
Proof.
  intros Hlt. unfold principal_of_response. cbn [status_code resp_json json_of].
  destruct (Z.geb_spec sc 400); [lia|]. cbn [ebind]. unfold users_of. cbn [py_get ebind].
  split; [|split].
  - intros u l Hm. rewrite Hm. reflexivity.
  - intros l [Hm|[Hm|Hm]] Hv; rewrite Hm, Hv; cbn; destruct l; reflexivity.
  - intros [Hm|[Hm|Hm]] [Hv|[Hv|Hv]]; rewrite Hm, Hv; reflexivity.
Qed.

(** *** Outbound calls and status codes *)

Lemma get_azure_config_raises env e :
  get_azure_config env = inl e -> e = RuntimeError config_error_message.
Proof.
  unfold get_azure_config.
  destruct (env "AZURE_DEVOPS_ORG"); [|congruence].
  destruct (env "AZURE_DEVOPS_PAT"); [|congruence].
  destruct (_ || _); congruence.
Qed.

Lemma py_get_raises x k dflt e :
  py_get x k dflt = inl e -> exists n, e = OtherException n.
Proof. destruct x; cbn; intros [= <-]; eauto. Qed.

Lemma user_attr_raises user key e :
  user_attr user key = inl e -> exists n, e = OtherException n.
Proof.
  unfold user_attr. destruct (py_get user "user" (JDict [])) as [e'|u] eqn:Hu; cbn.
  - intros [= <-]. eapply py_get_raises, Hu.
  - apply py_get_raises.
Qed.

Lemma user_name_raises user e :
  user_name user = inl e -> exists n, e = OtherException n.
Proof.
  unfold user_name. destruct (user_attr user "displayName") as [e'|dn] eqn:Hd; cbn.
  - intros [= <-]. eapply user_attr_raises, Hd.
  - destruct (truthy dn); [discriminate | apply py_get_raises].
Qed.

Lemma users_loop_raises display_name users e :
  users_loop display_name users = inl e -> exists n, e = OtherException n.
Proof.
  induction users as [|user rest IH]; [discriminate|]. cbn [users_loop].
  destruct (user_name user) as [e'|nm] eqn:Hn; cbn [ebind].
  { intros [= <-]. eapply user_name_raises, Hn. }
  destruct nm; cbn [as_str ebind]; try (intros [= <-]; eauto; fail).
  destruct (name_matches s display_name); [|exact IH].
  destruct (user_attr user "principalName") as [e'|p] eqn:Hp; cbn [ebind].
  { intros [= <-]. eapply user_attr_raises, Hp. }
  destruct (truthy p); [discriminate|].
  destruct (user_attr user "mailAddress") as [e'|m] eqn:Hma; cbn [ebind].
  { intros [= <-]. eapply user_attr_raises, Hma. }
  destruct (truthy m); [discriminate | exact IH].
Qed.

(** Whatever the lookup response holds, the only exceptions that leave
    the lookup are the uncaught ones of malformed data. *)
Lemma principal_of_response_raises display_name r e :
  principal_of_response display_name r = inl e -> exists n, e = OtherException n.
Proof.
  unfold principal_of_response. destruct (status_code r >=? 400); [discriminate|].
  unfold json_of. destruct (resp_json r) as [data|]; cbn [ebind];
    [|intros [= <-]; eauto].
  unfold users_of.
  destruct (py_get data "members" JNull) as [e'|mem] eqn:Hm; cbn [ebind].
  { intros [= <-]. eapply py_get_raises, Hm. }
  assert (Hl : forall users,
             match users with
             | JList l => users_loop display_name l
             | JDict _ | JStr _ => inl (OtherException "AttributeError")
             | _ => inl (OtherException "TypeError")
             end = inl e -> exists n, e = OtherException n).
  { intros [] H; try (injection H as <-; eauto; fail).
    eapply users_loop_raises, H. }
  destruct (truthy mem); cbn [ebind]; [apply Hl|].
  destruct (py_get data "value" JNull) as [e'|val] eqn:Hv; cbn [ebind].
  { intros [= <-]. eapply py_get_raises, Hv. }
  apply Hl.
Qed.

(** [POST /bugs] makes no call, or the lookup call alone, or the lookup
    call followed by one creation call; it never repeats a call and never
    creates without a tester identifier from the lookup.  Without a call
    the status is 422 or 500; after the lookup alone it is 404, 500 or
    502; after the creation call it is 201 or 502. *)
Theorem post_bugs_calls env up body :
  let answer := post_bugs validate_email env up body in
  (snd answer = [] /\
   (response_status (fst answer) = 422 \/ response_status (fst answer) = 500)) \/
  (exists org pat,
      snd answer = [lookup_request org pat TESTER_NAME] /\
      (response_status (fst answer) = 404 \/ response_status (fst answer) = 500 \/
       response_status (fst answer) = 502)) \/
  (exists org pat r0 tester request_body,
      validate_request validate_email body = inr request_body /\
      up [] (lookup_request org pat TESTER_NAME) = inr r0 /\
      principal_of_response TESTER_NAME r0 = inr tester /\
      truthy tester = true /\
      snd answer = [lookup_request org pat TESTER_NAME;
                    create_request org pat tester request_body] /\
      (response_status (fst answer) = 201 \/ response_status (fst answer) = 502)).
Proof.
  cbv zeta.
  destruct (validate_request validate_email body) as [errors|rb] eqn:Hv.
  { rewrite (post_bugs_refused _ env up _ _ Hv). left. split; [reflexivity|now left]. }
  destruct (get_azure_config env) as [e|[org pat]] eqn:Hc.
  { left. unfold post_bugs. rewrite Hv.
    unfold run_endpoint, create_bug, bind, lift. rewrite Hc.
    rewrite (get_azure_config_raises _ _ Hc). split; [reflexivity|now right]. }
  apply get_azure_config_inr in Hc. right.
  destruct (up [] (lookup_request org pat TESTER_NAME)) as [msg|r0] eqn:Hup.
  { left. exists org, pat.
    rewrite (post_bugs_lookup_unreachable _ _ _ _ _ _ _ Hc Hv Hup).
    split; [reflexivity|]. right. right. reflexivity. }
  rewrite (post_bugs_after_lookup _ _ _ _ _ _ _ _ Hc Hv Hup).
  destruct (principal_of_response TESTER_NAME r0) as [e|tester] eqn:Hp.
  { left. exists org, pat. split; [reflexivity|].
    destruct (principal_of_response_raises _ _ _ Hp) as (n & ->). right. left. reflexivity. }
  destruct (truthy tester) eqn:Ht.
  2:{ left. exists org, pat. split; [reflexivity|]. left. reflexivity. }
  right. exists org, pat, r0, tester, rb. cbv zeta.
  destruct (up [lookup_request org pat TESTER_NAME] _) as [msg|r].
  { repeat split; try assumption. right. reflexivity. }
  repeat split; try assumption.
  destruct (status_code r >=? 400); [right|left]; reflexivity.
Qed.

(** [GET /projects] makes no call and answers 500, or makes exactly one
    call and answers 200, 500 or 502. *)
Theorem get_projects_calls env up :
  (snd (get_projects env up) = [] /\
   response_status (fst (get_projects env up)) = 500) \/
  (exists org pat,
      configured env org pat /\
      snd (get_projects env up) = [projects_request org pat] /\
      (response_status (fst (get_projects env up)) = 200 \/
       response_status (fst (get_projects env up)) = 500 \/
       response_status (fst (get_projects env up)) = 502)).
Proof.
  destruct (get_azure_config env) as [e|[org pat]] eqn:Hc.
  { left. unfold get_projects, run_endpoint, list_projects, bind, lift. rewrite Hc.
    rewrite (get_azure_config_raises _ _ Hc). split; reflexivity. }
  apply get_azure_config_inr in Hc. right. exists org, pat. split; [exact Hc|].
  destruct (up [] (projects_request org pat)) as [msg|r] eqn:Hup.
  { rewrite (get_projects_unreachable _ _ _ _ _ Hc Hup).
    split; [reflexivity|]. right. right. reflexivity. }
  rewrite (get_projects_answer _ _ _ _ _ Hc Hup). split; [reflexivity|].
  destruct (status_code r >=? 400); [right; right; reflexivity|].
  destruct (resp_json r); [left | right; left]; reflexivity.
Qed.

Lemma post_bugs_log env up body :
  snd (post_bugs validate_email env up body) = [] \/
  exists org pat,
    configured env org pat /\
    (snd (post_bugs validate_email env up body) = [lookup_request org pat TESTER_NAME] \/
     exists tester request_body,
       snd (post_bugs validate_email env up body)
       = [lookup_request org pat TESTER_NAME;
          create_request org pat tester request_body]).
Proof.
  destruct (validate_request validate_email body) as [errors|rb] eqn:Hv.
  { rewrite (post_bugs_refused _ env up _ _ Hv). now left. }
  destruct (get_azure_config env) as [e|[org pat]] eqn:Hc.
  { left. unfold post_bugs. rewrite Hv.
    unfold run_endpoint, create_bug, bind, lift. rewrite Hc. reflexivity. }
  apply get_azure_config_inr in Hc. right. exists org, pat. split; [exact Hc|].
  destruct (up [] (lookup_request org pat TESTER_NAME)) as [msg|r0] eqn:Hup.
  { rewrite (post_bugs_lookup_unreachable _ _ _ _ _ _ _ Hc Hv Hup). now left. }
  rewrite (post_bugs_after_lookup _ _ _ _ _ _ _ _ Hc Hv Hup).
  destruct (principal_of_response TESTER_NAME r0) as [e|tester]; [now left|].
  destruct (truthy tester); [|now left].
  right. exists tester, rb. cbv zeta.
  destruct (up [lookup_request org pat TESTER_NAME] _); reflexivity.
Qed.

Lemma get_projects_log env up :
  snd (get_projects env up) = [] \/
  exists org pat,
    configured env org pat /\ snd (get_projects env up) = [projects_request org pat].
Proof.
  destruct (get_azure_config env) as [e|[org pat]] eqn:Hc.
  { left. unfold get_projects, run_endpoint, list_projects, bind, lift. rewrite Hc.
    reflexivity. }
  apply get_azure_config_inr in Hc. right. exists org, pat. split; [exact Hc|].
  destruct (up [] (projects_request org pat)) as [msg|r] eqn:Hup.
  - now rewrite (get_projects_unreachable _ _ _ _ _ Hc Hup).
  - now rewrite (get_projects_answer _ _ _ _ _ Hc Hup).
Qed.

(** Every outbound request of either endpoint carries the Basic header
    built from the configured credential and asks for JSON, and it goes
    to one of the two upstream hosts, under the configured organisation. *)
Theorem outbound_calls_authenticated env up body rq :
  In rq (snd (get_projects env up)) \/
  In rq (snd (post_bugs validate_email env up body)) ->
  exists org pat path,
    configured env org pat /\
    In ("Authorization", build_auth_header pat) (out_headers rq) /\
    In ("Accept", "application/json") (out_headers rq) /\
    (out_url rq = "https://dev.azure.com/" ++ org ++ "/" ++ path \/
     out_url rq = "https://vsaex.dev.azure.com/" ++ org ++ "/" ++ path).
Proof.
  assert (Hlookup : forall org pat,
             configured env org pat ->
             exists org' pat' path,
               configured env org' pat' /\
               In ("Authorization", build_auth_header pat')
                  (out_headers (lookup_request org pat TESTER_NAME)) /\
               In ("Accept", "application/json")
                  (out_headers (lookup_request org pat TESTER_NAME)) /\
               (out_url (lookup_request org pat TESTER_NAME)
                = "https://dev.azure.com/" ++ org' ++ "/" ++ path \/
                out_url (lookup_request org pat TESTER_NAME)
                = "https://vsaex.dev.azure.com/" ++ org' ++ "/" ++ path)).
  { intros org pat Hc.
    exists org, pat,
      ("_apis/userentitlements?api-version=6.0-preview.3&$filter=name eq '"
       ++ TESTER_NAME ++ "'").
    split; [exact Hc|]. split; [left; reflexivity|].
    split; [right; left; reflexivity|]. right. reflexivity. }
  intros [Hin|Hin].
  - destruct (get_projects_log env up) as [Hl|(org & pat & Hc & Hl)];
      rewrite Hl in Hin; [destruct Hin|].
    destruct Hin as [<-|[]]. exists org, pat, "_apis/projects?api-version=7.1-preview".
    split; [exact Hc|]. split; [left; reflexivity|].
    split; [right; left; reflexivity|]. left. reflexivity.
  - destruct (post_bugs_log env up body) as [Hl|(org & pat & Hc & [Hl|(t & rb & Hl)])];
      rewrite Hl in Hin; [destruct Hin| |].
    + destruct Hin as [<-|[]]. apply Hlookup, Hc.
    + destruct Hin as [<-|[<-|[]]]; [apply Hlookup, Hc|].
      exists org, pat,
        (project rb ++ "/_apis/wit/workitems/$Bug?api-version=7.1-preview").
      split; [exact Hc|]. split; [left; reflexivity|].
      split; [right; right; left; reflexivity|]. left. reflexivity.
Qed.


(** *** Dates that pass validation *)


(** *** Comparing names *)














End Coverage.

(** ** The authorization header *)

Section Base64.

Local Open Scope N_scope.

Lemma b64_recombine n :
  (n / 262144) * 262144 + (n / 4096 mod 64) * 4096 + (n / 64 mod 64) * 64 + n mod 64 = n.
Proof.
  replace (n / 4096) with (n / 64 / 64) by (rewrite N.Div0.div_div; reflexivity).
  replace (n / 262144) with (n / 64 / 64 / 64) by (rewrite !N.Div0.div_div; reflexivity).
  pose proof (N.Div0.div_mod n 64).
  pose proof (N.Div0.div_mod (n / 64) 64).
  pose proof (N.Div0.div_mod (n / 64 / 64) 64).
  lia.
Qed.

Lemma three_bytes a b c :
  a < 256 -> b < 256 -> c < 256 ->
  (a * 65536 + b * 256 + c) / 65536 = a /\
  (a * 65536 + b * 256 + c) / 256 mod 256 = b /\
  (a * 65536 + b * 256 + c) mod 256 = c /\
  (a * 65536 + b * 256 + c) / 262144 < 64.
Proof.
  intros. repeat split.
  - symmetry. apply (N.div_unique _ _ _ (b * 256 + c)); lia.
  - replace ((a * 65536 + b * 256 + c) / 256) with (a * 256 + b).
    + symmetry. apply (N.mod_unique _ _ a); lia.
    + apply (N.div_unique _ _ _ c); lia.
  - symmetry. apply (N.mod_unique _ _ (a * 256 + b)); lia.
  - apply N.Div0.div_lt_upper_bound; lia.
Qed.

Lemma N_of_ascii_bound c : N_of_ascii c < 256.
Proof. destruct c as [[] [] [] [] [] [] [] []]; vm_compute; reflexivity. Qed.

Lemma byte_of_N_of_ascii c : byte_of (N_of_ascii c) = c.
Proof.
  unfold byte_of. rewrite N.mod_small by apply N_of_ascii_bound.
  apply ascii_N_embedding.
Qed.

Lemma b64_index_char k :
  k < 64 -> b64_index (b64_char k) = Some k /\ Ascii.eqb (b64_char k) "=" = false.
Proof.
  intros Hk.
  assert (H : forall n, (n < 64)%nat ->
            b64_index (b64_char (N.of_nat n)) = Some (N.of_nat n) /\
            Ascii.eqb (b64_char (N.of_nat n)) "=" = false).
  { intros n Hn.
    do 64 (destruct n as [|n]; [split; vm_compute; reflexivity|]). lia. }
  rewrite <- (N2Nat.id k). apply H. lia.
Qed.

Lemma b64_index_pad : b64_index "=" = None.
Proof. reflexivity. Qed.

Lemma list_ind3 {A} (P : list A -> Prop) :
  P [] -> (forall a, P [a]) -> (forall a b, P [a; b]) ->
  (forall a b c l, P l -> P (a :: b :: c :: l)) ->
  forall l, P l.
Proof.
  intros H0 H1 H2 H3 l.
  assert (H : P l /\ (forall a, P (a :: l)) /\ (forall a b, P (a :: b :: l))).
  { induction l as [|x l (IH0 & IH1 & IH2)]; [auto|].
    split; [apply IH1|]. split; [intros a; apply IH2|]. intros a b. apply H3, IH0. }
  apply H.
Qed.

Lemma b64_group a b c :
  let n := N_of_ascii a * 65536 + N_of_ascii b * 256 + N_of_ascii c in
  b64_index (b64_char (n / 262144)) = Some (n / 262144) /\
  b64_index (b64_char (n / 4096 mod 64)) = Some (n / 4096 mod 64) /\
  b64_index (b64_char (n / 64 mod 64)) = Some (n / 64 mod 64) /\
  b64_index (b64_char (n mod 64)) = Some (n mod 64) /\
  byte_of (n / 65536) = a /\ byte_of (n / 256) = b /\ byte_of n = c.
Proof.
  intros n.
  destruct (three_bytes _ _ _ (N_of_ascii_bound a) (N_of_ascii_bound b)
              (N_of_ascii_bound c)) as (Ha & Hb & Hc & Hlt).
  fold n in Ha, Hb, Hc, Hlt.
  repeat split; try (apply b64_index_char; (exact Hlt || (apply N.mod_lt; discriminate))).
  - rewrite Ha. apply byte_of_N_of_ascii.
  - unfold byte_of. rewrite Hb. apply ascii_N_embedding.
  - unfold byte_of. rewrite Hc. apply ascii_N_embedding.
Qed.

Lemma b64_decode_encode l : b64_decode_list (b64_list l) = Some l.
Proof.
  induction l as [| a | a b | a b c l IH] using list_ind3.
  - reflexivity.
  - pose proof (b64_group a "000" "000") as (H1 & H2 & H3 & H4 & Ha & _).
    change (N_of_ascii "000") with 0 in *. rewrite N.mul_0_l, !N.add_0_r in *.
    cbn [b64_list b64_decode_list]. cbv zeta. rewrite H1, H2, b64_index_pad.
    cbn [Ascii.eqb Bool.eqb andb].
    assert (Hz : (N_of_ascii a * 65536) / 64 mod 64 = 0 /\ (N_of_ascii a * 65536) mod 64 = 0).
    { split.
      - replace (N_of_ascii a * 65536 / 64) with (N_of_ascii a * 1024)
          by (apply (N.div_unique _ _ _ 0); lia).
        symmetry. apply (N.mod_unique _ _ (N_of_ascii a * 16)); lia.
      - symmetry. apply (N.mod_unique _ _ (N_of_ascii a * 1024)); lia. }
    destruct Hz as (Hz1 & Hz2).
    pose proof (b64_recombine (N_of_ascii a * 65536)) as Hr.
    rewrite Hz1, Hz2, N.mul_0_l, !N.add_0_r in Hr. rewrite Hr, Ha. reflexivity.
  - pose proof (b64_group a b "000") as (H1 & H2 & H3 & H4 & Ha & Hb & _).
    change (N_of_ascii "000") with 0 in *. rewrite !N.add_0_r in *.
    cbn [b64_list b64_decode_list]. cbv zeta. rewrite H1, H2, H3, b64_index_pad.
    cbn [Ascii.eqb Bool.eqb andb].
    assert (Hz : (N_of_ascii a * 65536 + N_of_ascii b * 256) mod 64 = 0).
    { symmetry. apply (N.mod_unique _ _ (N_of_ascii a * 1024 + N_of_ascii b * 4)); lia. }
    pose proof (b64_recombine (N_of_ascii a * 65536 + N_of_ascii b * 256)) as Hr.
    rewrite Hz, !N.add_0_r in Hr. rewrite Hr, Ha, Hb. reflexivity.
  - pose proof (b64_group a b c) as (H1 & H2 & H3 & H4 & Ha & Hb & Hc).
    cbn [b64_list]. cbv zeta. cbn [b64_decode_list]. rewrite H1, H2, H3, H4. cbv zeta.
    rewrite b64_recombine, Ha, Hb, Hc, IH. reflexivity.
Qed.

Lemma b64_list_length l :
  List.length (b64_list l) = (4 * ((List.length l + 2) / 3))%nat.
Proof.
  induction l as [| a | a b | a b c l IH] using list_ind3; try reflexivity.
  cbn [b64_list List.length]. cbv zeta. cbn [List.length]. rewrite IH.
  replace (S (S (S (List.length l))) + 2)%nat with (1 * 3 + (List.length l + 2))%nat by lia.
  rewrite Nat.div_add_l by discriminate. lia.
Qed.

Lemma string_length_of_list l : String.length (string_of_list_ascii l) = List.length l.
Proof. induction l as [|c l IH]; cbn; [reflexivity | now rewrite IH]. Qed.

Lemma list_length_of_string s : List.length (list_ascii_of_string s) = String.length s.
Proof. induction s as [|c s IH]; cbn; [reflexivity | now rewrite IH]. Qed.

End Base64.

(** Decoding what [b64encode] produces gives the input back, for every
    string, so the encoding loses nothing; the output has four characters
    for every three bytes of input, rounded up. *)
Theorem b64encode_round_trip s :
  b64decode (b64encode s) = Some s /\
  String.length (b64encode s) = (4 * ((String.length s + 2) / 3))%nat.
Proof.
  unfold b64decode, b64encode. split.
  - rewrite list_ascii_of_string_of_list_ascii, b64_decode_encode. cbn.
    now rewrite string_of_list_ascii_of_string.
  - now rewrite string_length_of_list, b64_list_length, list_length_of_string.
Qed.

(** The header built from a credential is "Basic " followed by the
    base64 form of ":" and the credential, and reading it back as a Basic
    header with an empty user name gives the credential: no two
    credentials share a header. *)
Theorem build_auth_header_round_trip pat :
  build_auth_header pat = "Basic " ++ b64encode (":" ++ pat) /\
  credential_of_header (build_auth_header pat) = Some pat.
Proof.
  split; [reflexivity|].
  unfold credential_of_header, build_auth_header, b64encode.
  cbn [append list_ascii_of_string]. rewrite list_ascii_of_string_of_list_ascii.
  rewrite b64_decode_encode. now rewrite string_of_list_ascii_of_string.
Qed.

(** ** Which dates the validator accepts *)

Section Dates.
















End Dates.





(** *** The link to the parent *)

Lemma append_cancel_l p a b : p ++ a = p ++ b -> a = b.
Proof. induction p as [|c p IH]; cbn; [auto | intros [= H]; auto]. Qed.

Lemma str_int_injective a b : str_int a = str_int b -> a = b.
Proof.
  intros H. pose proof (str_int_decimal a) as Ha. pose proof (str_int_decimal b) as Hb.
  rewrite H in Ha. congruence.
Qed.

(** For two requests on the same project, the URL of the parent link is
    the same exactly when userStoryId is the same: the decimal form keeps
    the whole identifier, sign included. *)
Theorem parent_link_identifies_story org rb1 rb2 :
  project rb1 = project rb2 ->
  (parent_url org rb1 = parent_url org rb2 <-> userStoryId rb1 = userStoryId rb2).
Proof.
  intros Hp. unfold parent_url. rewrite Hp. split.
  - intros H. repeat apply append_cancel_l in H. apply str_int_injective, H.
  - intros ->. reflexivity.
Qed.

(** ** The further properties at concrete inputs *)


Lemma get_azure_config_spec_witness :
  get_azure_config env_ok = inr ("acme", "s3cret") /\
  get_azure_config env_blank_pat = inl (RuntimeError config_error_message).
Proof.
  split.
  - apply (proj1 (get_azure_config_spec env_ok)), configured_env_ok.
  - apply (proj2 (get_azure_config_spec env_blank_pat)).
    intros org pat (_ & _ & Hp & Hnp). vm_compute in Hp. congruence.
Defined.

Lemma empty_variable_is_missing_witness :
  get_projects env_blank_pat (scripted created created) = (config_error_response, []) /\
  post_bugs simple_email env_blank_pat (scripted tester_listing created) sample_body
    = (config_error_response, []).
Proof.
  split.
  - apply (empty_variable_is_missing simple_email env_blank_pat
             (scripted created created)). right. reflexivity.
  - apply (proj2 (empty_variable_is_missing simple_email env_blank_pat
                    (scripted tester_listing created) (or_intror eq_refl))
             sample_body sample_body eq_refl).
Defined.

Lemma transport_failure_is_502_witness :
  get_projects env_ok (unreachable "connection refused")
    = (JSONResponse 502
         (JDict [("detail",
                  JStr "Error en la comunicación con Azure DevOps: connection refused")]),
       [projects_request "acme" "s3cret"]) /\
  post_bugs simple_email env_ok (unreachable "connection refused") sample_body
    = (JSONResponse 502
         (JDict [("detail",
                  JStr "Error en la comunicación con Azure DevOps: connection refused")]),
       [lookup_request "acme" "s3cret" TESTER_NAME]) /\
  post_bugs simple_email env_ok (drops_second tester_listing "read timeout") sample_body
    = (JSONResponse 502
         (JDict [("detail",
                  JStr "Error en la comunicación con Azure DevOps: read timeout")]),
       [lookup_request "acme" "s3cret" TESTER_NAME;
        create_request "acme" "s3cret" (JStr "t@x.com") sample_body]).
Proof.
  split; [|split].
  - apply (proj1 (transport_failure_is_502 simple_email env_ok
                    (unreachable "connection refused") "acme" "s3cret"
                    "connection refused" configured_env_ok)).
    reflexivity.
  - apply (proj1 (proj2 (transport_failure_is_502 simple_email env_ok
                           (unreachable "connection refused") "acme" "s3cret"
                           "connection refused" configured_env_ok))
             sample_body sample_body); reflexivity.
  - apply (proj2 (proj2 (transport_failure_is_502 simple_email env_ok
                           (drops_second tester_listing "read timeout")
                           "acme" "s3cret" "read timeout" configured_env_ok))
             sample_body sample_body tester_listing (JStr "t@x.com")); reflexivity.
Defined.





Lemma members_before_value_witness :
  principal_of_response TESTER_NAME
    (mkResponse 200 "{...}"
       (Some (JDict [("members", JList strangers);
                     ("value", JList [entitlement TESTER_NAME
                                        [("principalName", JStr "t@x.com")]])])))
  = users_loop TESTER_NAME strangers /\
  principal_of_response TESTER_NAME
    (mkResponse 200 "{...}"
       (Some (JDict [("members", JList []);
                     ("value", JList [entitlement TESTER_NAME
                                        [("principalName", JStr "t@x.com")]])])))
  = users_loop TESTER_NAME
      [entitlement TESTER_NAME [("principalName", JStr "t@x.com")]] /\
  principal_of_response TESTER_NAME
    (mkResponse 200 "{}" (Some (JDict [("count", JInt 0)]))) = inr JNull.
Proof.
  split; [|split].
  - apply (proj1 (members_before_value TESTER_NAME 200 "{...}" _ eq_refl)). reflexivity.
  - apply (proj1 (proj2 (members_before_value TESTER_NAME 200 "{...}" _ eq_refl))).
    + right. right. reflexivity.
    + reflexivity.
  - apply (proj2 (proj2 (members_before_value TESTER_NAME 200 "{}" _ eq_refl)));
      left; reflexivity.
Defined.



Lemma outbound_calls_authenticated_witness :
  exists org pat path,
    configured env_ok org pat /\
    In ("Authorization", build_auth_header pat)
       (out_headers (create_request "acme" "s3cret" (JStr "t@x.com") sample_body)) /\
    In ("Accept", "application/json")
       (out_headers (create_request "acme" "s3cret" (JStr "t@x.com") sample_body)) /\
    (out_url (create_request "acme" "s3cret" (JStr "t@x.com") sample_body)
       = "https://dev.azure.com/" ++ org ++ "/" ++ path \/
     out_url (create_request "acme" "s3cret" (JStr "t@x.com") sample_body)
       = "https://vsaex.dev.azure.com/" ++ org ++ "/" ++ path).
Proof.
  apply (outbound_calls_authenticated simple_email env_ok
           (scripted tester_listing created) sample_body).
  right. right. left. reflexivity.
Defined.




Lemma parent_link_identifies_story_witness :
  parent_url "acme" sample_body <> parent_url "acme" (with_story 4712 sample_body).
Proof.
  intros H.
  apply (proj1 (parent_link_identifies_story "acme" sample_body
                  (with_story 4712 sample_body) eq_refl)) in H.
  vm_compute in H. discriminate H.
Defined.
